(** * arc.js: the TokenCapGC wrapper, the event correlator and the DAO
      creation protocol

    [TokenCapGCWrapper] (wrappers/tokenCapGC) is embedded as state-passing
    functions over an abstract chain.  The two things the wrapper imports
    but does not define are interfaces here: the bignumber.js library and
    the [ContractWrapperBase] base class.  The event lookup and the
    DaoCreator calls, which index.d.ts declares without a body, are
    modelled from the specification.

    Part I holds the definitions, Part II the properties. *)

From Stdlib Require Import ZArith String Ascii List.
From Stdlib Require Import Decimal DecimalString DecimalPos DecimalZ.
From stdpp Require Import base option list gmap strings.

Local Open Scope string_scope.
Local Open Scope list_scope.

(** * Part I: definitions *)

(** ** JavaScript errors and promise completions *)

(** [new Error(message)]: the only error class the wrapper throws. *)
Inductive JsError : Type :=
| Error (message : string).

(** The settlement of the promise an [async] method returns. *)
Inductive Completion (A : Type) : Type :=
| Resolved (a : A)
| Rejected (e : JsError).
Arguments Resolved {A} a.
Arguments Rejected {A} e.

(** ** The bignumber.js interface *)

(** What the code uses of bignumber.js: the constructor on strings, the
    value of the number literal [0], and [lt].  The two laws are the facts
    about the library that the zero boundary rests on. *)
Class BigNumberLib : Type := {
  BigNumber : Type;
  BigNumber_of_string : string -> BigNumber;
  BigNumber_zero : BigNumber;
  BigNumber_lt : BigNumber -> BigNumber -> bool;
  BigNumber_of_string_zero : BigNumber_of_string "0" = BigNumber_zero;
  BigNumber_lt_zero_zero : BigNumber_lt BigNumber_zero BigNumber_zero = false
}.

(** [new BigNumber(v)] for [v : BigNumber | string]: a BigNumber argument
    is copied (same value), a string is parsed.  This is the value the
    constructor returns; a constructor call that throws, as the library
    does on a string that is no number when it is set to report errors, is
    outside the model. *)
Definition new_BigNumber `{BigNumberLib} (v : BigNumber + string) : BigNumber :=
  match v with
  | inl b => b
  | inr s => BigNumber_of_string s
  end.

(** ** JavaScript values *)

Inductive JsValue `{BigNumberLib} : Type :=
| JsUndefined
| JsNull
| JsString (s : string)
| JsBigNumber (b : BigNumber).

(** ToBoolean: [undefined], [null] and the empty string are falsy; an
    object, here a BigNumber instance, is truthy. *)
Definition truthy `{BigNumberLib} (v : JsValue) : bool :=
  match v with
  | JsUndefined | JsNull => false
  | JsString s => negb (String.eqb s "")
  | JsBigNumber _ => true
  end.

(** [arr[i]]: [undefined] past the end of the array. *)
Definition array_get `{BigNumberLib} (arr : list JsValue) (i : nat) : JsValue :=
  default JsUndefined (arr !! i).

(** ** Transaction receipts (index.d.ts) *)

Definition Hash : Type := string.
Definition Address : Type := string.

Record TransactionLogTruffle `{BigNumberLib} : Type := {
  log_address : string;
  args : gmap string JsValue;
  blockHash : string;
  blockNumber : nat;
  event : string;
  logIndex : nat;
  log_transactionHash : string;
  transactionIndex : nat;
  type : string
}.

(** The raw provider [receipt] field is read by none of the functions
    below and is left out. *)
Record TransactionReceiptTruffle `{BigNumberLib} : Type := {
  transactionHash : string;
  logs : list TransactionLogTruffle;
  tx_address : string
}.

Record ArcTransactionResult `{BigNumberLib} : Type := {
  tx : TransactionReceiptTruffle
}.

(** [ArcTransactionDataResult<TData> extends ArcTransactionResult]. *)
Record ArcTransactionDataResult `{BigNumberLib} (TData : Type) : Type := {
  asArcTransactionResult : ArcTransactionResult;
  result : TData
}.
Arguments asArcTransactionResult {_ _} _.
Arguments result {_ _} _.

(** ** The base class *)

(** [ContractWrapperBase]: the wrapper calls [super._setParameters] and
    [this.getParametersArray]; both talk to the chain.  [World] is the
    state of the chain and of the provider, threaded through every call. *)
Class ContractWrapperBase `{BigNumberLib} : Type := {
  World : Type;
  TxEventContext : Type;
  _setParameters :
    string -> TxEventContext -> list JsValue ->
    World -> Completion (ArcTransactionDataResult Hash) * World;
  getParametersArray :
    Hash -> World -> Completion (list JsValue) * World
}.

(** A small state-and-rejection monad for [async] methods. *)
Definition Async `{ContractWrapperBase} (A : Type) : Type :=
  World -> Completion A * World.

Definition ret `{ContractWrapperBase} {A} (a : A) : Async A :=
  fun w => (Resolved a, w).

Definition throw `{ContractWrapperBase} {A} (e : JsError) : Async A :=
  fun w => (Rejected e, w).

Definition await `{ContractWrapperBase} {A B} (m : Async A) (k : A -> Async B)
  : Async B :=
  fun w =>
    match m w with
    | (Resolved a, w') => k a w'
    | (Rejected e, w') => (Rejected e, w')
    end.

Notation "'let!' x ':=' m 'in' k" := (await m (fun x => k))
  (at level 10, x name, m at level 100, k at level 200).

(** ** TokenCapGCWrapper *)

Record TokenCapGcParams `{ContractWrapperBase} : Type := {
  txEventContext : TxEventContext;
  cap : BigNumber + string;
  token : JsValue
}.

(** What [getParameters] resolves to: the object [{ cap, token }]. *)
Record TokenCapGcParamsObject `{BigNumberLib} : Type := {
  cap_of : JsValue;
  token_of : JsValue
}.

Definition setParameters `{ContractWrapperBase} (params : TokenCapGcParams)
  : Async (ArcTransactionDataResult Hash) :=
  if negb (truthy (token params)) then
    throw (Error "token must be set")
  else
    let cap := new_BigNumber (cap params) in
    if BigNumber_lt cap BigNumber_zero then
      throw (Error "cap must be greater than or equal to zero")
    else
      _setParameters "TokenCapGC.setParameters" (txEventContext params)
        [token params; JsBigNumber cap].

Definition getParameters `{ContractWrapperBase} (paramsHash : Hash)
  : Async TokenCapGcParamsObject :=
  let! params := getParametersArray paramsHash in
  ret {| cap_of := array_get params 1; token_of := array_get params 0 |}.

(** The contract keeps a parameter tuple under the hash that
    [_setParameters] resolves to, and [getParametersArray] reads it back. *)
Definition parameters_stored `{ContractWrapperBase} : Prop :=
  forall functionName ctx (tuple : list JsValue) w r w',
    _setParameters functionName ctx tuple w = (Resolved r, w') ->
    getParametersArray (result r) w' = (Resolved tuple, w').

(** ** The rest of the wrapper: the parameters an avatar is using *)

(** What [getSchemeParametersHash] needs beside the base class: the
    wrapper's own [address], [this.getController], and the controller's
    [getGlobalConstraintParameters].  Both calls go to the chain. *)
Class GlobalConstraintEnvironment `{ContractWrapperBase} : Type := {
  Controller : Type;
  address : Address;
  getController : Address -> Async Controller;
  getGlobalConstraintParameters :
    Controller -> Address -> Address -> Async Hash
}.

Definition getSchemeParametersHash `{GlobalConstraintEnvironment}
    (avatarAddress : Address) : Async Hash :=
  let! controller := getController avatarAddress in
  getGlobalConstraintParameters controller address avatarAddress.

(** ** The protocol's errors *)

(** Modelled from the spec: the error taxonomy of section 7, which the
    operations below fail with. *)
Inductive ProtocolError : Type :=
| MissingParameterError (field : string)
| InvalidParameterError (field constraint : string)
| TransportError
| TransactionRevertedError (reason : option string)
| EventNotFoundError (eventName : string)
| UnauthorizedError
| AlreadyConfiguredError.

(** ** Event correlator *)

(** Modelled from the spec: the body of [Utils.getValueFromLogs], which
    index.d.ts only declares.  Section 4.3: the logs are filtered to the
    entries whose event name equals [eventName]; with no entry left the
    operation fails with [EventNotFoundError eventName]; with [index]
    omitted the last matching entry is selected, with [index] given the
    entry at that position among all logs; the named argument is read from
    the selected entry.  An [index] past the end of the logs selects no
    entry and is reported like a missing event; an argument the entry does
    not carry reads as [undefined], as a property read does.  The
    declaration lets [eventName] be omitted too; the operation of the spec
    always names the event. *)
Definition getValueFromLogs `{BigNumberLib}
    (tx : TransactionReceiptTruffle) (arg : string)
    (eventName : string) (index : option nat) : ProtocolError + JsValue :=
  let matching := filter (fun entry => event entry = eventName) (logs tx) in
  match matching with
  | [] => inl (EventNotFoundError eventName)
  | _ :: _ =>
      let selected :=
        match index with
        | None => last matching
        | Some i => logs tx !! i
        end in
      match selected with
      | Some entry => inr (default JsUndefined (args entry !! arg))
      | None => inl (EventNotFoundError eventName)
      end
  end.

(** Modelled from the spec: [ArcTransactionResult.getValueFromTx], declared
    in index.d.ts as the same lookup on the result's own receipt. *)
Definition getValueFromTx `{BigNumberLib}
    (this : ArcTransactionResult) (valueName : string)
    (eventName : string) (index : option nat) : ProtocolError + JsValue :=
  getValueFromLogs (tx this) valueName eventName index.

(** ** DAO creation: forgeOrg, then setSchemes *)

(** [FounderConfig], [ForgeOrgConfig], [SchemeConfig] and
    [SetSchemesConfig] of index.d.ts.  The two parameter bags of a scheme
    are maps from parameter names to values; the default voting-machine
    parameters of [SchemesConfig] are left out. *)
Record FounderConfig `{BigNumberLib} : Type := {
  founder_address : Address;
  tokens : BigNumber + string;
  reputation : BigNumber + string
}.

Record ForgeOrgConfig `{BigNumberLib} : Type := {
  name : string;
  tokenName : string;
  tokenSymbol : string;
  founders : list FounderConfig;
  universalController : option bool
}.

Record SchemeConfig `{BigNumberLib} : Type := {
  scheme_name : string;
  scheme_address : option Address;
  permissions : option string;
  votingMachineParams : gmap string JsValue;
  additionalParams : gmap string JsValue
}.

Record SetSchemesConfig `{BigNumberLib} : Type := {
  schemes : list SchemeConfig;
  avatar : Address
}.

(** Modelled from the spec: what the Parameter Codec of section 4.1
    rejects a parameter set with, a missing required field or a value
    outside its domain, and the error of section 7 each one is. *)
Inductive ValidationError : Type :=
| MissingParameter (field : string)
| InvalidParameter (field constraint : string).

Definition validation_error (e : ValidationError) : ProtocolError :=
  match e with
  | MissingParameter field => MissingParameterError field
  | InvalidParameter field constraint => InvalidParameterError field constraint
  end.

(** Modelled from the spec: the Parameter Codec of section 4.1,
    [encode(contractId, options)], applied to the configuration of a scheme
    (the contract is the scheme's name, the options are its parameter
    bags).  It yields the ordered parameters or the validation error.  The
    spec gives no per-contract table of required fields and domains, so the
    codec is an interface. *)
Class ParameterCodec `{BigNumberLib} : Type := {
  encode : SchemeConfig -> ValidationError + list JsValue
}.

(** Modelled from the spec: section 4.5, each scheme registration
    validates its own parameter set before the batched call is submitted,
    and one invalid scheme fails the whole step.  The schemes are validated
    in the order given and the first error is the one reported. *)
Fixpoint validateSchemes `{ParameterCodec} (registrations : list SchemeConfig)
  : option ValidationError :=
  match registrations with
  | [] => None
  | scheme :: rest =>
      match encode scheme with
      | inl e => Some e
      | inr _ => validateSchemes rest
      end
  end.

(** Modelled from the spec: the life cycle of one organization, section
    4.5, [Unforged -> Forged -> SchemesSet].  [Forged] remembers the caller
    that performed [forgeOrg], [SchemesSet] the schemes that were
    registered. *)
Inductive OrgState `{BigNumberLib} : Type :=
| Unforged
| Forged (creator : Address)
| SchemesSet (registered : list SchemeConfig).

(** The organizations known to the chain, by avatar address; an address
    that is not a key is an organization still [Unforged]. *)
Definition org_state `{BigNumberLib} (orgs : gmap Address OrgState)
    (a : Address) : OrgState :=
  default Unforged (orgs !! a).

(** What a call yields: a failure, or the event index.d.ts declares for it
    ([NewOrg] and [InitialSchemesSet], each carrying [_avatar]). *)
Inductive Outcome : Type :=
| Failed (e : ProtocolError)
| NewOrg (_avatar : Address)
| InitialSchemesSet (_avatar : Address).


(** Modelled from the spec: [DaoCreator.forgeOrg], declared in index.d.ts
    without a body.  Sections 4.5 and 8: a negative founder token amount
    fails with [InvalidParameterError] before anything is submitted;
    otherwise a new organization is created, at an address no organization
    has yet, and is [Forged] by the caller. *)
Definition forgeOrg `{BigNumberLib} (caller : Address)
    (options : ForgeOrgConfig) (orgs : gmap Address OrgState)
  : Outcome * gmap Address OrgState :=
  if existsb
       (fun f => BigNumber_lt (new_BigNumber (tokens f)) BigNumber_zero)
       (founders options)
  then (Failed (InvalidParameterError "tokens" "must be >= 0"), orgs)
  else
    let a := fresh (dom orgs) in
    (NewOrg a, <[a := Forged caller]> orgs).

(** Modelled from the spec: [DaoCreator.setSchemes], declared in index.d.ts
    without a body.  Section 4.5: every scheme's parameter set is validated
    first, and an invalid one fails the step with its validation error
    before anything is submitted.  Then the call is submitted: it is valid
    only after [Forged]; on an organization whose schemes are set it fails
    with [AlreadyConfiguredError]; a caller other than the one that
    performed [forgeOrg] fails with [UnauthorizedError] (on an [Unforged]
    organization no caller performed it).  A failing call changes
    nothing. *)
Definition setSchemes `{ParameterCodec} (caller : Address)
    (options : SetSchemesConfig) (orgs : gmap Address OrgState)
  : Outcome * gmap Address OrgState :=
  match validateSchemes (schemes options) with
  | Some e => (Failed (validation_error e), orgs)
  | None =>
      match org_state orgs (avatar options) with
      | SchemesSet _ => (Failed AlreadyConfiguredError, orgs)
      | Forged creator =>
          if decide (creator = caller) then
            (InitialSchemesSet (avatar options),
             <[avatar options := SchemesSet (schemes options)]> orgs)
          else (Failed UnauthorizedError, orgs)
      | Unforged => (Failed UnauthorizedError, orgs)
      end
  end.

(** A client's calls on the DaoCreator, and their execution in order. *)
Inductive Call `{BigNumberLib} : Type :=
| CallForgeOrg (caller : Address) (options : ForgeOrgConfig)
| CallSetSchemes (caller : Address) (options : SetSchemesConfig).

Definition step `{ParameterCodec} (c : Call) (orgs : gmap Address OrgState)
  : Outcome * gmap Address OrgState :=
  match c with
  | CallForgeOrg caller options => forgeOrg caller options orgs
  | CallSetSchemes caller options => setSchemes caller options orgs
  end.

Fixpoint run `{ParameterCodec} (calls : list Call) (orgs : gmap Address OrgState)
  : list Outcome * gmap Address OrgState :=
  match calls with
  | [] => ([], orgs)
  | c :: rest =>
      let (o, orgs') := step c orgs in
      let (os, orgs'') := run rest orgs' in
      (o :: os, orgs'')
  end.

(** ** A library and a chain to run the code on *)

(** A small implementation of [BigNumberLib]: the integers and [NaN].  A
    string of decimal digits, with or without a leading minus sign, is read
    as that integer, as bignumber.js reads it.  Every other string reads as
    [NaN] here, also the ones bignumber.js reads as a number (a leading
    plus sign, a fraction, an exponent); the samples use none of them.  A
    comparison with [NaN] is false. *)
Module IntegerBigNumber.

Inductive t : Type :=
| NaN
| Int (z : Z).

Definition of_string (s : string) : t :=
  match NilZero.int_of_string s with
  | Some d => Int (Z.of_int d)
  | None => NaN
  end.

Definition lt (a b : t) : bool :=
  match a, b with
  | Int x, Int y => (x <? y)%Z
  | _, _ => false
  end.

(** The canonical decimal numeral of an integer. *)
Definition to_string (z : Z) : string :=
  NilZero.string_of_int (Z.to_int z).

Definition lib : BigNumberLib := {|
  BigNumber := t;
  BigNumber_of_string := of_string;
  BigNumber_zero := Int 0;
  BigNumber_lt := lt;
  BigNumber_of_string_zero := eq_refl;
  BigNumber_lt_zero_zero := eq_refl
|}.

End IntegerBigNumber.

(** A chain that records every submitted call and keeps the parameter
    tuples a contract stores under their hash. *)
Module SimulatedChain.

#[local] Existing Instance IntegerBigNumber.lib.

Record t : Type := {
  submitted : list (string * list JsValue);
  parameters : gmap Hash (list JsValue)
}.

Definition render (v : JsValue) : string :=
  match v with
  | JsUndefined => "undefined"
  | JsNull => "null"
  | JsString s => s
  | JsBigNumber IntegerBigNumber.NaN => "NaN"
  | JsBigNumber (IntegerBigNumber.Int z) => IntegerBigNumber.to_string z
  end.

Definition parametersHash (params : list JsValue) : Hash :=
  String.concat "," (map render params).

Definition receipt (h : Hash) : ArcTransactionResult :=
  {| tx := {| transactionHash := h; logs := []; tx_address := h |} |}.

Definition submit (functionName : string) (ctx : unit)
    (params : list JsValue) (w : t)
  : Completion (ArcTransactionDataResult Hash) * t :=
  let h := parametersHash params in
  (Resolved {| asArcTransactionResult := receipt h; result := h |},
   {| submitted := (functionName, params) :: submitted w;
      parameters := <[h := params]> (parameters w) |}).

Definition read (h : Hash) (w : t) : Completion (list JsValue) * t :=
  (Resolved (default [] (parameters w !! h)), w).

Definition base : ContractWrapperBase := {|
  World := t;
  TxEventContext := unit;
  _setParameters := submit;
  getParametersArray := read
|}.

Definition genesis : t := {| submitted := []; parameters := ∅ |}.

End SimulatedChain.

(** A codec that knows one scheme: ContributionReward needs its
    [orgNativeTokenFee], and the fee must not be below zero.  Every other
    scheme has no parameter to validate. *)
Module SampleCodec.

#[local] Existing Instance IntegerBigNumber.lib.

Definition encode_scheme (scheme : SchemeConfig)
  : ValidationError + list JsValue :=
  if String.eqb (scheme_name scheme) "ContributionReward" then
    match additionalParams scheme !! "orgNativeTokenFee" with
    | None => inl (MissingParameter "orgNativeTokenFee")
    | Some (JsBigNumber fee) =>
        if IntegerBigNumber.lt fee (IntegerBigNumber.Int 0)
        then inl (InvalidParameter "orgNativeTokenFee" "must be >= 0")
        else inr [JsBigNumber fee]
    | Some v => inr [v]
    end
  else inr [].

Definition codec : ParameterCodec := {| encode := encode_scheme |}.

End SampleCodec.

(** ** Sample inputs *)

Section Samples.

#[local] Existing Instance IntegerBigNumber.lib.
#[local] Existing Instance SimulatedChain.base.
#[local] Existing Instance SampleCodec.codec.

Import IntegerBigNumber SimulatedChain.

Definition tenThousand : TokenCapGcParams :=
  {| txEventContext := tt; cap := inr "10000"; token := JsString "0x4e59" |}.

Definition tenThousandBigNumber : TokenCapGcParams :=
  {| txEventContext := tt; cap := inl (Int 10000); token := JsString "0x4e59" |}.

Definition zeroCap : TokenCapGcParams :=
  {| txEventContext := tt; cap := inr "0"; token := JsString "0x4e59" |}.

Definition negativeCap : TokenCapGcParams :=
  {| txEventContext := tt; cap := inr "-1"; token := JsString "0x4e59" |}.

Definition negativeCapNoToken : TokenCapGcParams :=
  {| txEventContext := tt; cap := inr "-1"; token := JsUndefined |}.

Definition emptyToken : TokenCapGcParams :=
  {| txEventContext := tt; cap := inr "10000"; token := JsString "" |}.

Definition tenThousandResult : ArcTransactionDataResult Hash :=
  {| asArcTransactionResult := receipt "0x4e59,10000";
     result := "0x4e59,10000" |}.

Definition tenThousandStored : World :=
  {| submitted :=
       [("TokenCapGC.setParameters",
         [JsString "0x4e59"; JsBigNumber (Int 10000)])];
     parameters :=
       <["0x4e59,10000" := [JsString "0x4e59"; JsBigNumber (Int 10000)]]> ∅ |}.

Definition logged (eventName : string) (position : nat)
    (values : gmap string JsValue) : TransactionLogTruffle :=
  {| log_address := "0x51c1"; args := values; blockHash := "0xb10c";
     blockNumber := 7; event := eventName; logIndex := position;
     log_transactionHash := "0x7a11"; transactionIndex := 0;
     type := "mined" |}.

(** A receipt with two [Stake] logs around a [NewProposal] log. *)
Definition twoStakes : TransactionReceiptTruffle :=
  {| transactionHash := "0x7a11";
     logs :=
       [logged "Stake" 0 {["_amount" := JsBigNumber (Int 5)]};
        logged "NewProposal" 1 {["_proposalId" := JsString "0xab12"]};
        logged "Stake" 2 {["_amount" := JsBigNumber (Int 9)]};
        logged "Redeem" 3 ∅];
     tx_address := "0x7a11" |}.

Definition genesisDao : ForgeOrgConfig :=
  {| name := "Genesis"; tokenName := "Gen"; tokenSymbol := "GEN";
     founders := [{| founder_address := "0xa11ce"; tokens := inr "100";
                     reputation := inr "1000" |}];
     universalController := None |}.

Definition indebtedDao : ForgeOrgConfig :=
  {| name := "Debt"; tokenName := "Dbt"; tokenSymbol := "DBT";
     founders := [{| founder_address := "0xa11ce"; tokens := inr "-100";
                     reputation := inr "1000" |}];
     universalController := None |}.

Definition registrar : SchemeConfig :=
  {| scheme_name := "SchemeRegistrar"; scheme_address := None;
     permissions := Some "0x00000003";
     votingMachineParams := ∅; additionalParams := ∅ |}.

Definition rewardWithoutFee : SchemeConfig :=
  {| scheme_name := "ContributionReward"; scheme_address := None;
     permissions := None;
     votingMachineParams := ∅; additionalParams := ∅ |}.

Definition rewardWithFee : SchemeConfig :=
  {| scheme_name := "ContributionReward"; scheme_address := None;
     permissions := None;
     votingMachineParams := ∅;
     additionalParams := {["orgNativeTokenFee" := JsBigNumber (Int 0)]} |}.

Definition firstSchemes : SetSchemesConfig :=
  {| schemes := [registrar]; avatar := "0" |}.

Definition otherSchemes : SetSchemesConfig :=
  {| schemes := [rewardWithFee]; avatar := "0" |}.

Definition invalidSchemes : SetSchemesConfig :=
  {| schemes := [registrar; rewardWithoutFee]; avatar := "0" |}.



End Samples.

(** A controller for the simulated chain: a fixed registry that gives, for
    an avatar, the hash registered for each global constraint.  An avatar
    without a controller makes the lookup reject; a constraint that is not
    registered reads as the null hash. *)
Module SimulatedController.

#[local] Existing Instance IntegerBigNumber.lib.
#[local] Existing Instance SimulatedChain.base.

Definition registry : gmap Address (gmap Address Hash) :=
  {["0xa7a" := {["0x70ca9" := "0x4e59,10000"]}]}.

Definition lookup_controller (avatarAddress : Address) (w : SimulatedChain.t)
  : Completion (gmap Address Hash) * SimulatedChain.t :=
  match registry !! avatarAddress with
  | Some controller => (Resolved controller, w)
  | None => (Rejected (Error "no controller for this avatar"), w)
  end.

Definition read_constraint (controller : gmap Address Hash)
    (constraint avatarAddress : Address) (w : SimulatedChain.t)
  : Completion Hash * SimulatedChain.t :=
  (Resolved (default "0x0" (controller !! constraint)), w).

Definition env : GlobalConstraintEnvironment := {|
  Controller := gmap Address Hash;
  address := "0x70ca9";
  getController := lookup_controller;
  getGlobalConstraintParameters := read_constraint
|}.

End SimulatedController.

(** A chain on which every submission is reverted, and which counts the
    submissions it has seen. *)
Module RevertingChain.

#[local] Existing Instance IntegerBigNumber.lib.

Definition revert (functionName : string) (ctx : unit)
    (params : list JsValue) (attempts : nat)
  : Completion (ArcTransactionDataResult Hash) * nat :=
  (Rejected (Error "revert"), S attempts).

Definition read (h : Hash) (attempts : nat)
  : Completion (list JsValue) * nat :=
  (Resolved [], attempts).

Definition base : ContractWrapperBase := {|
  World := nat;
  TxEventContext := unit;
  _setParameters := revert;
  getParametersArray := read
|}.

#[local] Existing Instance base.

(** [tenThousand] of the samples, for this chain. *)
Definition tenThousand : TokenCapGcParams :=
  {| txEventContext := tt; cap := inr "10000"; token := JsString "0x4e59" |}.

End RevertingChain.

Section MoreSamples.

#[local] Existing Instance IntegerBigNumber.lib.
#[local] Existing Instance SimulatedChain.base.

Import IntegerBigNumber SimulatedChain.

(** What a well-formed record of a submission looks like. *)
Definition wellFormedSubmission (entry : string * list JsValue) : Prop :=
  exists tok c,
    entry = ("TokenCapGC.setParameters", [tok; JsBigNumber c]) /\
    truthy tok = true /\ BigNumber_lt c BigNumber_zero = false.

Definition onlyWellFormed (w : World) : Prop :=
  Forall wellFormedSubmission (submitted w).

End MoreSamples.

(** * Part II: properties *)

(** ** TokenCapGCWrapper *)

Section TokenCapGC.

Context `{Base : ContractWrapperBase}.

Implicit Types (params : TokenCapGcParams) (w : World).

(** The three ways through [setParameters]. *)

Lemma setParameters_token_unset params w :
  truthy (token params) = false ->
  setParameters params w = (Rejected (Error "token must be set"), w).
Proof.
  intros Hfalsy. unfold setParameters. rewrite Hfalsy. reflexivity.
Qed.

Lemma setParameters_cap_negative params w :
  truthy (token params) = true ->
  BigNumber_lt (new_BigNumber (cap params)) BigNumber_zero = true ->
  setParameters params w =
    (Rejected (Error "cap must be greater than or equal to zero"), w).
Proof.
  intros Htoken Hneg. unfold setParameters.
  rewrite Htoken, Hneg. reflexivity.
Qed.

Lemma setParameters_submits params w :
  truthy (token params) = true ->
  BigNumber_lt (new_BigNumber (cap params)) BigNumber_zero = false ->
  setParameters params w =
    _setParameters "TokenCapGC.setParameters" (txEventContext params)
      [token params; JsBigNumber (new_BigNumber (cap params))] w.
Proof.
  intros Htoken Hcap. unfold setParameters.
  rewrite Htoken, Hcap. reflexivity.
Qed.

Lemma getParameters_of_tuple paramsHash (tuple : list JsValue) w w' :
  getParametersArray paramsHash w = (Resolved tuple, w') ->
  getParameters paramsHash w =
    (Resolved {| cap_of := array_get tuple 1; token_of := array_get tuple 0 |},
     w').
Proof.
  intros Hread. unfold getParameters, await, ret. rewrite Hread. reflexivity.
Qed.

(** C1. A cap given as a string and a cap given as the BigNumber that the
    string denotes are encoded alike: [setParameters] behaves identically
    on the two inputs, the tuple handed to the contract included. *)
Theorem setParameters_string_or_BigNumber
    ctx (tok : JsValue) (s : string) (v : BigNumber) w :
  BigNumber_of_string s = v ->
  setParameters {| txEventContext := ctx; cap := inr s; token := tok |} w =
  setParameters {| txEventContext := ctx; cap := inl v; token := tok |} w.
Proof.
  intros <-. unfold setParameters; simpl. reflexivity.
Qed.

(** C2. For a valid pair, [setParameters] hands the contract the tuple
    [token; cap] in that order, and once the transaction has gone through,
    [getParameters] on the resulting hash reads the token back from
    position 0 and the cap from position 1. *)
Theorem getParameters_setParameters params w :
  parameters_stored ->
  truthy (token params) = true ->
  BigNumber_lt (new_BigNumber (cap params)) BigNumber_zero = false ->
  setParameters params w =
    _setParameters "TokenCapGC.setParameters" (txEventContext params)
      [token params; JsBigNumber (new_BigNumber (cap params))] w
  /\ forall r w',
      setParameters params w = (Resolved r, w') ->
      getParameters (result r) w' =
        (Resolved {| cap_of := JsBigNumber (new_BigNumber (cap params));
                     token_of := token params |}, w').
Proof.
  intros Hstored Htoken Hcap.
  pose proof (setParameters_submits params w Htoken Hcap) as Hcall.
  split; [exact Hcall|].
  intros r w' Hdone. rewrite Hcall in Hdone.
  apply Hstored in Hdone.
  rewrite (getParameters_of_tuple _ _ _ _ Hdone). reflexivity.
Qed.

(** C3, as amended. A strictly negative cap makes [setParameters] fail
    without touching the chain; the error is the cap error when the token
    is set and the token error when it is not. *)
Theorem setParameters_negative_cap params w :
  BigNumber_lt (new_BigNumber (cap params)) BigNumber_zero = true ->
  setParameters params w =
    (Rejected
       (Error (if truthy (token params)
               then "cap must be greater than or equal to zero"
               else "token must be set")), w).
Proof.
  intros Hneg. destruct (truthy (token params)) eqn:Htoken.
  - apply setParameters_cap_negative; assumption.
  - apply setParameters_token_unset; assumption.
Qed.

(** C4. A parameter set without the token field fails with the error that
    names the field, and the chain is left as it was. *)
Theorem setParameters_missing_token params w :
  token params = JsUndefined ->
  setParameters params w = (Rejected (Error "token must be set"), w).
Proof.
  intros Hmissing. apply setParameters_token_unset.
  rewrite Hmissing. reflexivity.
Qed.

(** C9. With the token set, a cap of zero, as the string "0" or as the
    BigNumber zero, passes validation and is submitted; more generally
    every cap that is not below zero is. *)
Theorem setParameters_zero_cap params w :
  truthy (token params) = true ->
  cap params = inr "0" \/ cap params = inl BigNumber_zero ->
  setParameters params w =
    _setParameters "TokenCapGC.setParameters" (txEventContext params)
      [token params; JsBigNumber BigNumber_zero] w
  /\ forall params',
      truthy (token params') = true ->
      BigNumber_lt (new_BigNumber (cap params')) BigNumber_zero = false ->
      setParameters params' w =
        _setParameters "TokenCapGC.setParameters" (txEventContext params')
          [token params'; JsBigNumber (new_BigNumber (cap params'))] w.
Proof.
  intros Htoken Hzero.
  assert (Hnew : new_BigNumber (cap params) = BigNumber_zero).
  { destruct Hzero as [-> | ->]; simpl;
      [apply BigNumber_of_string_zero | reflexivity]. }
  split.
  - rewrite (setParameters_submits params w Htoken).
    + rewrite Hnew. reflexivity.
    + rewrite Hnew. apply BigNumber_lt_zero_zero.
  - intros params'. apply setParameters_submits.
Qed.

(** C10. An empty, [null] or [undefined] token fails exactly as a missing
    one does, before anything is encoded. *)
Theorem setParameters_falsy_token params w :
  token params = JsString "" \/ token params = JsNull
    \/ token params = JsUndefined ->
  setParameters params w = (Rejected (Error "token must be set"), w).
Proof.
  intros Hfalsy. apply setParameters_token_unset.
  destruct Hfalsy as [-> | [-> | ->]]; reflexivity.
Qed.

End TokenCapGC.

(** ** Event correlator *)

Section EventCorrelator.

Context `{Lib : BigNumberLib}.

(** The last element that passes a filter sits at the greatest position of
    the list that passes it. *)
Lemma last_filter_position {A} (P : A -> Prop) `{!forall x, Decision (P x)}
    (l : list A) (x : A) :
  last (filter P l) = Some x ->
  exists i, l !! i = Some x /\ P x /\
    forall j y, l !! j = Some y -> P y -> j <= i.
Proof.
  induction l as [|a l IH] using rev_ind; [discriminate|].
  rewrite filter_app, filter_cons, filter_nil.
  destruct (decide (P a)) as [Ha|Ha].
  - rewrite last_snoc. intros [= ->].
    exists (length l). split; [|split; [assumption|]].
    + rewrite lookup_app_r, Nat.sub_diag by lia. reflexivity.
    + intros j y Hj _. apply lookup_lt_Some in Hj.
      rewrite length_app in Hj. simpl in Hj. lia.
  - rewrite app_nil_r. intros Hlast.
    destruct (IH Hlast) as (i & Hi & Hx & Hmax).
    exists i. split; [|split; [assumption|]].
    + rewrite lookup_app_l; [assumption|]. eapply lookup_lt_Some; eassumption.
    + intros j y Hj Hy.
      destruct (decide (j < length l)) as [Hlt|Hge].
      * rewrite lookup_app_l in Hj by assumption. eapply Hmax; eassumption.
      * rewrite lookup_app_r in Hj by lia.
        destruct (j - length l) as [|k]; simpl in Hj; [|discriminate].
        injection Hj as ->. contradiction.
Qed.

Lemma filter_none {A} (P : A -> Prop) `{!forall x, Decision (P x)}
    (l : list A) :
  (forall x, x ∈ l -> ~ P x) -> filter P l = [].
Proof.
  intros Hnone. destruct (filter P l) as [|y l'] eqn:Hfilter; [reflexivity|].
  assert (Hy : y ∈ filter P l) by (rewrite Hfilter; left).
  apply list_elem_of_filter in Hy as [HP Hin].
  exfalso. eapply Hnone; eassumption.
Qed.

(** C5. When two or more logs carry the requested event and no index is
    given, the value comes from the matching log at the greatest position
    of the log list. *)
Theorem getValueFromLogs_last_match
    (receipt : TransactionReceiptTruffle) (arg eventName : string) :
  2 <= length (filter (fun entry => event entry = eventName) (logs receipt)) ->
  exists i entry,
    logs receipt !! i = Some entry /\ event entry = eventName /\
    (forall j entry', logs receipt !! j = Some entry' ->
                      event entry' = eventName -> j <= i) /\
    getValueFromLogs receipt arg eventName None =
      inr (default JsUndefined (args entry !! arg)) /\
    getValueFromTx {| tx := receipt |} arg eventName None =
      inr (default JsUndefined (args entry !! arg)).
Proof.
  intros Htwo. unfold getValueFromTx, getValueFromLogs; simpl.
  destruct (filter _ (logs receipt)) as [|first others] eqn:Hmatching;
    [simpl in Htwo; lia|].
  destruct (last (first :: others)) as [entry|] eqn:Hlast;
    [|apply last_None in Hlast; discriminate].
  rewrite <- Hmatching in Hlast.
  destruct (last_filter_position _ _ _ Hlast) as (i & Hi & Hevent & Hmax).
  exists i, entry. repeat split; assumption.
Qed.

(** C6. When no log carries the requested event the lookup fails with
    [EventNotFoundError], naming the event, whatever the index. *)
Theorem getValueFromLogs_no_match
    (receipt : TransactionReceiptTruffle) (arg eventName : string)
    (index : option nat) :
  (forall entry, entry ∈ logs receipt -> event entry <> eventName) ->
  getValueFromLogs receipt arg eventName index =
    inl (EventNotFoundError eventName) /\
  getValueFromTx {| tx := receipt |} arg eventName index =
    inl (EventNotFoundError eventName).
Proof.
  intros Hnone. unfold getValueFromTx, getValueFromLogs; simpl.
  rewrite (filter_none _ _ Hnone). split; reflexivity.
Qed.

End EventCorrelator.

(** ** DAO creation *)

Section DaoCreator.

Context `{Codec : ParameterCodec}.

Implicit Types (orgs : gmap Address OrgState) (a : Address).






(** A failed call leaves the organizations as they were. *)
Lemma step_failed c orgs e :
  (step c orgs).1 = Failed e -> (step c orgs).2 = orgs.
Proof.
  destruct c as [caller options|caller options]; simpl.
  - unfold forgeOrg. destruct (existsb _ _); simpl; [reflexivity|discriminate].
  - unfold setSchemes.
    destruct (validateSchemes (schemes options)); [reflexivity|].
    destruct (org_state orgs (avatar options)) as [|creator|registered];
      simpl; try reflexivity.
    destruct (decide (creator = caller)); simpl; [discriminate|reflexivity].
Qed.







End DaoCreator.

(** ** The properties on the sample library and chain *)

Section Simulation.

#[local] Existing Instance IntegerBigNumber.lib.
#[local] Existing Instance SimulatedChain.base.
#[local] Existing Instance SampleCodec.codec.

Import IntegerBigNumber SimulatedChain.

(** Reading the canonical numeral of an integer gives the integer back. *)
Lemma of_string_to_string (z : Z) : of_string (to_string z) = Int z.
Proof.
  unfold of_string, to_string. rewrite NilZero.isi.
  - rewrite DecimalZ.of_to. reflexivity.
  - destruct z; simpl; try discriminate.
    intros [= Hnil]. exact (DecimalPos.Unsigned.to_uint_nonnil _ Hnil).
  - destruct z; simpl; try discriminate.
    intros [= Hnil]. exact (DecimalPos.Unsigned.to_uint_nonnil _ Hnil).
Qed.

(** For every integer, its numeral and its BigNumber are treated alike by
    [setParameters]. *)
Lemma setParameters_numeral_or_integer (tok : JsValue) (z : Z) (w : World) :
  setParameters
    {| txEventContext := tt; cap := inr (to_string z); token := tok |} w =
  setParameters
    {| txEventContext := tt; cap := inl (Int z); token := tok |} w.
Proof.
  unfold setParameters; simpl. rewrite of_string_to_string. reflexivity.
Qed.

(** The simulated chain keeps what it is given. *)
Lemma simulated_parameters_stored : parameters_stored.
Proof.
  intros functionName ctx tuple w r w' Hsubmit.
  simpl in Hsubmit. unfold submit in Hsubmit.
  injection Hsubmit as <- <-. simpl. unfold read; simpl.
  rewrite lookup_insert_eq. reflexivity.
Qed.

Example setParameters_tenThousand :
  setParameters tenThousand genesis =
    (Resolved tenThousandResult, tenThousandStored).
Proof. reflexivity. Qed.

Example setParameters_negativeCap :
  setParameters negativeCap genesis =
    (Rejected (Error "cap must be greater than or equal to zero"), genesis).
Proof. reflexivity. Qed.

Example setParameters_emptyToken :
  setParameters emptyToken genesis =
    (Rejected (Error "token must be set"), genesis).
Proof. reflexivity. Qed.

Lemma setParameters_string_or_BigNumber_witness :
  BigNumber_of_string "10000" = Int 10000 /\
  setParameters tenThousand genesis =
  setParameters tenThousandBigNumber genesis.
Proof.
  split; [reflexivity|].
  apply (@setParameters_string_or_BigNumber lib base tt (JsString "0x4e59")
           "10000" (Int 10000) genesis).
  reflexivity.
Defined.

Lemma getParameters_setParameters_witness :
  truthy (token tenThousand) = true /\
  BigNumber_lt (new_BigNumber (cap tenThousand)) BigNumber_zero = false /\
  setParameters tenThousand genesis =
    (Resolved tenThousandResult, tenThousandStored) /\
  getParameters (result tenThousandResult) tenThousandStored =
    (Resolved {| cap_of := JsBigNumber (Int 10000);
                 token_of := JsString "0x4e59" |}, tenThousandStored).
Proof.
  split; [reflexivity|]. split; [reflexivity|].
  destruct (@getParameters_setParameters lib base tenThousand genesis
              simulated_parameters_stored eq_refl eq_refl) as [Hcall Hread].
  split; [reflexivity|]. apply Hread. reflexivity.
Defined.

(** C3 as it is stated fails here: the cap is negative, yet the failure is
    not the cap error, because the token is checked first. *)
Lemma setParameters_negativeCapNoToken :
  BigNumber_lt (new_BigNumber (cap negativeCapNoToken)) BigNumber_zero = true /\
  setParameters negativeCapNoToken genesis =
    (Rejected (Error "token must be set"), genesis) /\
  setParameters negativeCapNoToken genesis <>
    (Rejected (Error "cap must be greater than or equal to zero"), genesis).
Proof.
  split; [reflexivity|]. split; [reflexivity|]. discriminate.
Qed.

Lemma setParameters_negative_cap_witness :
  BigNumber_lt (new_BigNumber (cap negativeCap)) BigNumber_zero = true /\
  setParameters negativeCap genesis =
    (Rejected (Error "cap must be greater than or equal to zero"), genesis).
Proof.
  split; [reflexivity|].
  apply (@setParameters_negative_cap lib base negativeCap genesis).
  reflexivity.
Defined.

Lemma setParameters_missing_token_witness :
  token negativeCapNoToken = JsUndefined /\
  setParameters negativeCapNoToken genesis =
    (Rejected (Error "token must be set"), genesis).
Proof.
  split; [reflexivity|].
  apply (@setParameters_missing_token lib base negativeCapNoToken genesis).
  reflexivity.
Defined.

Lemma setParameters_zero_cap_witness :
  truthy (token zeroCap) = true /\
  (cap zeroCap = inr "0" \/ cap zeroCap = inl BigNumber_zero) /\
  setParameters zeroCap genesis =
    _setParameters "TokenCapGC.setParameters" tt
      [JsString "0x4e59"; JsBigNumber (Int 0)] genesis.
Proof.
  split; [reflexivity|]. split; [left; reflexivity|].
  destruct (@setParameters_zero_cap lib base zeroCap genesis
              eq_refl (or_introl eq_refl)) as [Hsubmitted _].
  exact Hsubmitted.
Defined.

Lemma setParameters_falsy_token_witness :
  token emptyToken = JsString "" /\
  setParameters emptyToken genesis =
    (Rejected (Error "token must be set"), genesis).
Proof.
  split; [reflexivity|].
  apply (@setParameters_falsy_token lib base emptyToken genesis).
  left. reflexivity.
Defined.

Example getValueFromLogs_twoStakes :
  getValueFromLogs twoStakes "_amount" "Stake" None = inr (JsBigNumber (Int 9)).
Proof. vm_compute. reflexivity. Qed.

Example getValueFromLogs_newProposal :
  getValueFromLogs twoStakes "_proposalId" "NewProposal" None =
    inr (JsString "0xab12").
Proof. vm_compute. reflexivity. Qed.

Example getValueFromLogs_noVote :
  getValueFromLogs twoStakes "_voter" "Vote" None =
    inl (EventNotFoundError "Vote").
Proof. vm_compute. reflexivity. Qed.

Lemma getValueFromLogs_last_match_witness :
  2 <= length (filter (fun entry => event entry = "Stake") (logs twoStakes)) /\
  exists i entry,
    logs twoStakes !! i = Some entry /\ event entry = "Stake" /\
    (forall j entry', logs twoStakes !! j = Some entry' ->
                      event entry' = "Stake" -> j <= i) /\
    getValueFromLogs twoStakes "_amount" "Stake" None =
      inr (default JsUndefined (args entry !! "_amount")) /\
    getValueFromTx {| tx := twoStakes |} "_amount" "Stake" None =
      inr (default JsUndefined (args entry !! "_amount")).
Proof.
  assert (Htwo : 2 <= length (filter (fun entry => event entry = "Stake")
                                (logs twoStakes)))
    by (vm_compute; lia).
  split; [exact Htwo|].
  exact (getValueFromLogs_last_match twoStakes "_amount" "Stake" Htwo).
Defined.

Lemma getValueFromLogs_no_match_witness :
  (forall entry, entry ∈ logs twoStakes -> event entry <> "Vote") /\
  getValueFromLogs twoStakes "_voter" "Vote" (Some 1) =
    inl (EventNotFoundError "Vote") /\
  getValueFromTx {| tx := twoStakes |} "_voter" "Vote" (Some 1) =
    inl (EventNotFoundError "Vote").
Proof.
  assert (Hnone : forall entry, entry ∈ logs twoStakes -> event entry <> "Vote").
  { intros entry Hin. simpl in Hin.
    repeat (apply elem_of_cons in Hin as [-> | Hin]; [discriminate|]).
    apply elem_of_nil in Hin. contradiction. }
  split; [exact Hnone|].
  exact (getValueFromLogs_no_match twoStakes "_voter" "Vote" (Some 1) Hnone).
Defined.

Example run_twice :
  (run [CallSetSchemes "0xa11ce" firstSchemes;
        CallForgeOrg "0xa11ce" indebtedDao;
        CallForgeOrg "0xa11ce" genesisDao;
        CallSetSchemes "0xb0b" firstSchemes;
        CallSetSchemes "0xa11ce" invalidSchemes;
        CallSetSchemes "0xa11ce" firstSchemes;
        CallSetSchemes "0xa11ce" otherSchemes;
        CallSetSchemes "0xb0b" firstSchemes;
        CallSetSchemes "0xa11ce" invalidSchemes] ∅).1 =
    [Failed UnauthorizedError;
     Failed (InvalidParameterError "tokens" "must be >= 0");
     NewOrg "0"; Failed UnauthorizedError;
     Failed (MissingParameterError "orgNativeTokenFee");
     InitialSchemesSet "0"; Failed AlreadyConfiguredError;
     Failed AlreadyConfiguredError;
     Failed (MissingParameterError "orgNativeTokenFee")].
Proof. vm_compute. reflexivity. Qed.



End Simulation.

(** ** Further properties of TokenCapGCWrapper *)

Section TokenCapGCFurther.

Context `{Env : GlobalConstraintEnvironment}.

Implicit Types (params : TokenCapGcParams) (w : World).

(** Every call of [setParameters] goes one of three ways. *)
Lemma setParameters_cases params w :
  (truthy (token params) = false /\
   setParameters params w = (Rejected (Error "token must be set"), w))
  \/ (truthy (token params) = true /\
      BigNumber_lt (new_BigNumber (cap params)) BigNumber_zero = true /\
      setParameters params w =
        (Rejected (Error "cap must be greater than or equal to zero"), w))
  \/ (truthy (token params) = true /\
      BigNumber_lt (new_BigNumber (cap params)) BigNumber_zero = false /\
      setParameters params w =
        _setParameters "TokenCapGC.setParameters" (txEventContext params)
          [token params; JsBigNumber (new_BigNumber (cap params))] w).
Proof.
  destruct (truthy (token params)) eqn:Htoken.
  - destruct (BigNumber_lt (new_BigNumber (cap params)) BigNumber_zero)
      eqn:Hcap.
    + right; left. auto using setParameters_cap_negative.
    + right; right. auto using setParameters_submits.
  - left. auto using setParameters_token_unset.
Qed.

(** X1. A [setParameters] that resolves did validate its input: the token
    was set, the cap was not below zero, and the result and the new state
    of the chain are those of the one contract call made, on the tuple
    [token; cap] with the cap as a BigNumber. *)
Theorem setParameters_resolved params w r w' :
  setParameters params w = (Resolved r, w') ->
  truthy (token params) = true /\
  BigNumber_lt (new_BigNumber (cap params)) BigNumber_zero = false /\
  _setParameters "TokenCapGC.setParameters" (txEventContext params)
    [token params; JsBigNumber (new_BigNumber (cap params))] w
  = (Resolved r, w').
Proof.
  intros Hdone.
  destruct (setParameters_cases params w)
    as [[_ Hout] | [(_ & _ & Hout) | (Htoken & Hcap & Hout)]];
    rewrite Hout in Hdone; try discriminate.
  auto.
Qed.

(** X2. A [setParameters] that rejects and has changed the state of the
    chain did pass both checks: the rejection is the contract call's own,
    on the tuple [token; cap], handed on unchanged.  A rejection that the
    wrapper raises itself never changes the state. *)
Theorem setParameters_rejected_after_submission params w e w' :
  setParameters params w = (Rejected e, w') ->
  w' <> w ->
  truthy (token params) = true /\
  BigNumber_lt (new_BigNumber (cap params)) BigNumber_zero = false /\
  _setParameters "TokenCapGC.setParameters" (txEventContext params)
    [token params; JsBigNumber (new_BigNumber (cap params))] w
  = (Rejected e, w').
Proof.
  intros Hfail Hchanged.
  destruct (setParameters_cases params w)
    as [[Htoken Hout] | [(Htoken & Hcap & Hout) | (Htoken & Hcap & Hout)]];
    rewrite Hout in Hfail.
  - injection Hfail as _ <-. contradiction.
  - injection Hfail as _ <-. contradiction.
  - auto.
Qed.

(** X3. Whatever a client passes, in however many calls, [setParameters]
    changes the chain only through contract calls on a set token and a cap
    that is not below zero: a property of the chain that every such call
    keeps is kept by every sequence of [setParameters] calls. *)
Theorem setParameters_keeps_invariant (Inv : World -> Prop)
    (calls : list TokenCapGcParams) w :
  (forall ctx (tok : JsValue) (c : BigNumber) w0,
      truthy tok = true -> BigNumber_lt c BigNumber_zero = false ->
      Inv w0 ->
      Inv (_setParameters "TokenCapGC.setParameters" ctx
             [tok; JsBigNumber c] w0).2) ->
  Inv w ->
  Inv (foldl (fun w0 params => (setParameters params w0).2) w calls).
Proof.
  intros Hcall. revert w.
  induction calls as [|params calls IH]; intros w Hw; simpl; [assumption|].
  apply IH.
  destruct (setParameters_cases params w)
    as [[_ Hout] | [(_ & _ & Hout) | (Htoken & Hcap & Hout)]];
    rewrite Hout; simpl; auto.
Qed.

(** X4. [getParameters] has no failure of its own: it rejects exactly when
    [getParametersArray] does, with the same error and the same state. *)
Theorem getParameters_rejected paramsHash w e w' :
  getParameters paramsHash w = (Rejected e, w') <->
  getParametersArray paramsHash w = (Rejected e, w').
Proof.
  unfold getParameters, await, ret.
  destruct (getParametersArray paramsHash w) as [[tuple|e0] w0]; split;
    intros Hout; try discriminate; injection Hout as <- <-; reflexivity.
Qed.

(** X5. [getParameters] does not check how long the array is: an array
    with fewer than two entries gives an [undefined] cap, an empty one an
    [undefined] token as well, and the call still resolves. *)
Theorem getParameters_short_array paramsHash (tuple : list JsValue) w w' :
  getParametersArray paramsHash w = (Resolved tuple, w') ->
  length tuple <= 1 ->
  getParameters paramsHash w =
    (Resolved {| cap_of := JsUndefined;
                 token_of := match tuple with
                             | [] => JsUndefined
                             | t :: _ => t
                             end |}, w').
Proof.
  intros Hread Hshort. rewrite (getParameters_of_tuple _ _ _ _ Hread).
  destruct tuple as [|t [|c rest]]; simpl in Hshort; try lia; reflexivity.
Qed.

(** X6. [getSchemeParametersHash] has no failure of its own: it rejects
    exactly when the controller lookup rejects, and then the controller is
    not asked, or when the controller's answer about this wrapper's address
    and the avatar rejects, on the state the lookup left. *)
Theorem getSchemeParametersHash_rejected (avatarAddress : Address) w e w' :
  getSchemeParametersHash avatarAddress w = (Rejected e, w') <->
  getController avatarAddress w = (Rejected e, w')
  \/ exists controller w1,
      getController avatarAddress w = (Resolved controller, w1) /\
      getGlobalConstraintParameters controller address avatarAddress w1
      = (Rejected e, w').
Proof.
  unfold getSchemeParametersHash, await.
  destruct (getController avatarAddress w) as [[controller|e0] w0]; split.
  - intros Hout. right. exists controller, w0. auto.
  - intros [Hlookup | (c & w1 & Hlookup & Hout)]; [discriminate|].
    injection Hlookup as <- <-. exact Hout.
  - intros Hout. left. injection Hout as <- <-. reflexivity.
  - intros [Hlookup | (c & w1 & Hlookup & Hout)]; [|discriminate].
    injection Hlookup as <- <-. reflexivity.
Qed.

(** X7. From setting to reading back: when [setParameters] has resolved
    with a hash and the controller reports that hash for an avatar, reading
    the avatar's hash with [getSchemeParametersHash] and passing it to
    [getParameters] gives the token that was set and the cap as a
    BigNumber. *)
Theorem getParameters_of_avatar params (avatarAddress : Address) w r w1 :
  parameters_stored ->
  setParameters params w = (Resolved r, w1) ->
  getSchemeParametersHash avatarAddress w1 = (Resolved (result r), w1) ->
  (let! paramsHash := getSchemeParametersHash avatarAddress in
   getParameters paramsHash) w1 =
    (Resolved {| cap_of := JsBigNumber (new_BigNumber (cap params));
                 token_of := token params |}, w1).
Proof.
  intros Hstored Hset Hhash.
  destruct (setParameters_cases params w)
    as [[_ Hout] | [(_ & _ & Hout) | (_ & _ & Hout)]];
    rewrite Hout in Hset; try discriminate.
  apply Hstored in Hset.
  unfold await at 1. rewrite Hhash.
  rewrite (getParameters_of_tuple _ _ _ _ Hset). reflexivity.
Qed.

(** X8. What was read back can be set again: after a [setParameters] that
    resolved, [getParameters] on its hash gives a token and a BigNumber
    cap that pass validation once more, and setting them submits the very
    tuple of the first call. *)
Theorem setParameters_of_read_back params w r w1 ctx :
  parameters_stored ->
  setParameters params w = (Resolved r, w1) ->
  exists (t : JsValue) (b : BigNumber),
    getParameters (result r) w1 =
      (Resolved {| cap_of := JsBigNumber b; token_of := t |}, w1) /\
    [t; JsBigNumber b] =
      [token params; JsBigNumber (new_BigNumber (cap params))] /\
    setParameters {| txEventContext := ctx; cap := inl b; token := t |} w1 =
      _setParameters "TokenCapGC.setParameters" ctx [t; JsBigNumber b] w1.
Proof.
  intros Hstored Hset.
  destruct (setParameters_cases params w)
    as [[_ Hout] | [(_ & _ & Hout) | (Htoken & Hcap & Hout)]];
    rewrite Hout in Hset; try discriminate.
  apply Hstored in Hset.
  exists (token params), (new_BigNumber (cap params)).
  split; [|split; [reflexivity|]].
  - rewrite (getParameters_of_tuple _ _ _ _ Hset). reflexivity.
  - apply (setParameters_submits
             {| txEventContext := ctx;
                cap := inl (new_BigNumber (cap params));
                token := token params |} w1); assumption.
Qed.

End TokenCapGCFurther.

(** ** The further properties on the sample library and chain *)

Section SimulationFurther.

#[local] Existing Instance IntegerBigNumber.lib.
#[local] Existing Instance SimulatedChain.base.
#[local] Existing Instance SimulatedController.env.

Import IntegerBigNumber SimulatedChain.

(** On the simulated chain a valid submission keeps the record
    well-formed. *)
Lemma submit_onlyWellFormed (ctx : TxEventContext) (tok : JsValue)
    (c : BigNumber) (w0 : World) :
  truthy tok = true -> BigNumber_lt c BigNumber_zero = false ->
  onlyWellFormed w0 ->
  onlyWellFormed
    (_setParameters "TokenCapGC.setParameters" ctx [tok; JsBigNumber c] w0).2.
Proof.
  intros Htok Hc Hw0. unfold onlyWellFormed; simpl.
  apply Forall_cons. split; [|exact Hw0].
  exists tok, c. auto.
Qed.

Example getSchemeParametersHash_registered :
  getSchemeParametersHash "0xa7a" genesis = (Resolved "0x4e59,10000", genesis).
Proof. vm_compute. reflexivity. Qed.

Example getSchemeParametersHash_unknown_avatar :
  getSchemeParametersHash "0xbad" genesis =
    (Rejected (Error "no controller for this avatar"), genesis).
Proof. vm_compute. reflexivity. Qed.

Lemma setParameters_resolved_witness :
  setParameters tenThousand genesis =
    (Resolved tenThousandResult, tenThousandStored) /\
  truthy (token tenThousand) = true /\
  BigNumber_lt (new_BigNumber (cap tenThousand)) BigNumber_zero = false /\
  _setParameters "TokenCapGC.setParameters" tt
    [JsString "0x4e59"; JsBigNumber (Int 10000)] genesis
  = (Resolved tenThousandResult, tenThousandStored).
Proof.
  assert (Hdone : setParameters tenThousand genesis =
                    (Resolved tenThousandResult, tenThousandStored))
    by reflexivity.
  split; [exact Hdone|].
  exact (@setParameters_resolved lib base tenThousand genesis
           tenThousandResult tenThousandStored Hdone).
Defined.

Lemma setParameters_rejected_after_submission_witness :
  @setParameters lib RevertingChain.base RevertingChain.tenThousand 0 =
    (Rejected (Error "revert"), 1) /\
  1 <> 0 /\
  @_setParameters lib RevertingChain.base "TokenCapGC.setParameters" tt
    [JsString "0x4e59"; JsBigNumber (Int 10000)] 0
  = (Rejected (Error "revert"), 1).
Proof.
  assert (Hfail : @setParameters lib RevertingChain.base
                    RevertingChain.tenThousand 0
                  = (Rejected (Error "revert"), 1))
    by reflexivity.
  assert (Hchanged : 1 <> 0) by discriminate.
  split; [exact Hfail|]. split; [exact Hchanged|].
  destruct (@setParameters_rejected_after_submission lib RevertingChain.base
              RevertingChain.tenThousand 0 (Error "revert") 1 Hfail Hchanged)
    as (_ & _ & Hcall).
  exact Hcall.
Defined.

Lemma setParameters_keeps_invariant_witness :
  onlyWellFormed genesis /\
  onlyWellFormed
    (foldl (fun w0 params => (setParameters params w0).2) genesis
       [negativeCap; tenThousand; emptyToken; zeroCap; negativeCapNoToken]).
Proof.
  assert (Hgenesis : onlyWellFormed genesis) by apply Forall_nil_2.
  split; [exact Hgenesis|].
  exact (@setParameters_keeps_invariant lib base onlyWellFormed
           [negativeCap; tenThousand; emptyToken; zeroCap; negativeCapNoToken]
           genesis submit_onlyWellFormed Hgenesis).
Defined.

Lemma getParameters_short_array_witness :
  getParametersArray "0xdead" genesis = (Resolved [], genesis) /\
  length ([] : list JsValue) <= 1 /\
  getParameters "0xdead" genesis =
    (Resolved {| cap_of := JsUndefined; token_of := JsUndefined |}, genesis).
Proof.
  assert (Hread : getParametersArray "0xdead" genesis = (Resolved [], genesis))
    by reflexivity.
  assert (Hshort : length ([] : list JsValue) <= 1) by (simpl; lia).
  split; [exact Hread|]. split; [exact Hshort|].
  exact (@getParameters_short_array lib base "0xdead" [] genesis genesis
           Hread Hshort).
Defined.

Lemma getParameters_of_avatar_witness :
  setParameters tenThousand genesis =
    (Resolved tenThousandResult, tenThousandStored) /\
  getSchemeParametersHash "0xa7a" tenThousandStored =
    (Resolved (result tenThousandResult), tenThousandStored) /\
  (let! paramsHash := getSchemeParametersHash "0xa7a" in
   getParameters paramsHash) tenThousandStored =
    (Resolved {| cap_of := JsBigNumber (Int 10000);
                 token_of := JsString "0x4e59" |}, tenThousandStored).
Proof.
  assert (Hset : setParameters tenThousand genesis =
                   (Resolved tenThousandResult, tenThousandStored))
    by reflexivity.
  assert (Hhash : getSchemeParametersHash "0xa7a" tenThousandStored =
                    (Resolved (result tenThousandResult), tenThousandStored))
    by (vm_compute; reflexivity).
  split; [exact Hset|]. split; [exact Hhash|].
  exact (@getParameters_of_avatar lib base SimulatedController.env tenThousand
           "0xa7a" genesis tenThousandResult tenThousandStored
           simulated_parameters_stored Hset Hhash).
Defined.

Lemma setParameters_of_read_back_witness :
  setParameters tenThousand genesis =
    (Resolved tenThousandResult, tenThousandStored) /\
  exists (t : JsValue) (b : BigNumber),
    getParameters (result tenThousandResult) tenThousandStored =
      (Resolved {| cap_of := JsBigNumber b; token_of := t |},
       tenThousandStored) /\
    [t; JsBigNumber b] =
      [token tenThousand; JsBigNumber (new_BigNumber (cap tenThousand))] /\
    setParameters {| txEventContext := tt; cap := inl b; token := t |}
      tenThousandStored =
      _setParameters "TokenCapGC.setParameters" tt [t; JsBigNumber b]
        tenThousandStored.
Proof.
  assert (Hset : setParameters tenThousand genesis =
                   (Resolved tenThousandResult, tenThousandStored))
    by reflexivity.
  split; [exact Hset|].
  exact (@setParameters_of_read_back lib base tenThousand genesis
           tenThousandResult tenThousandStored tt
           simulated_parameters_stored Hset).
Defined.

End SimulationFurther.
